(** * APOD viewer: the fetcher and the cache store

    A shallow embedding of [fetch_apod] and [update_apod_db] from
    [APOD_app_v1.1.py], together with the parts of Python, [requests],
    [os.path] and [pandas] that the two functions call.

    - A Python [dict] with string keys is a [gmap string string].
    - A raised exception is the [Raise] branch of [result]; nothing in the
      program catches one, so a [Raise] travels to the caller unchanged.
    - The network is a function from the requested URL to the outcome of
      [requests.get]; the parsed body is the outcome of [response.json()].
    - The disk is a finite map from paths to CSV files; code that reads or
      writes it runs in the state-and-exception monad [io].
    - A [DataFrame] is the ordered list of its rows over the seven columns
      of the Data Model; a CSV file is the list of its records, header
      first, every record the list of its fields. Quoting of fields and
      pandas' choice of column types belong to pandas and are not modelled:
      a field is read back as the string that was written. *)

From stdpp Require Import gmap strings list fin_maps pretty.
From Stdlib Require Import ZArith Ascii.

Local Open Scope string_scope.
Local Open Scope list_scope.

(** ** Python values and exceptions *)

Module Py.

Inductive exn : Type :=
| KeyError (key : string)
| JSONDecodeError
| ConnectionError
| EmptyDataError
| ParserError.

Inductive result (A : Type) : Type :=
| Ok (a : A)
| Raise (e : exn).
Arguments Ok {A} a.
Arguments Raise {A} e.

#[export] Instance result_ret : MRet result := @Ok.

#[export] Instance result_bind : MBind result := fun A B k c =>
  match c with
  | Ok a => k a
  | Raise e => Raise e
  end.

(** The computation completes with a value. *)
Definition returns {A} (c : result A) : Prop := exists a, c = Ok a.

(** [data[k]] *)
Definition getitem (data : gmap string string) (k : string) : result string :=
  match data !! k with
  | Some v => Ok v
  | None => Raise (KeyError k)
  end.

(** [data.get(k, d)] *)
Definition get (data : gmap string string) (k d : string) : string :=
  match data !! k with
  | Some v => v
  | None => d
  end.

(** [k in data] *)
Definition contains (k : string) (data : gmap string string) : bool :=
  bool_decide (is_Some (data !! k)).

(** [bool(data)]: a dict is true when it is not empty. *)
Definition truthy (data : gmap string string) : bool :=
  negb (bool_decide (data = ∅)).

(** [str(x)] for [x] a string or [None]. *)
Definition str_opt (x : option string) : string :=
  match x with
  | Some s => s
  | None => "None"
  end.

End Py.

Import Py.

Abbreviation dict := (gmap string string).

(** ** requests *)

Module Requests.

(** What the program looks at in a [requests.Response]: the status code,
    the raw text, and what [.json()] does (it returns the parsed object
    or raises on a body that is not JSON). *)
Record response : Type := mkResponse {
  status_code : Z;
  text : string;
  json : result dict
}.

End Requests.

Import Requests.

(** ** pandas and the disk *)

Module Pandas.

Record row : Type := mkRow {
  date : string;
  title : string;
  explanation : string;
  copyright : string;
  media_type : string;
  url : string;
  hdurl : string
}.

Abbreviation DataFrame := (list row).

(** The column labels, in the order of the dict literal that builds
    [new_data]. *)
Definition columns : list string :=
  ["date"; "title"; "explanation"; "copyright"; "media_type"; "url"; "hdurl"].

Definition cells (r : row) : list string :=
  [date r; title r; explanation r; copyright r; media_type r; url r; hdurl r].

Abbreviation csv_file := (list (list string)).

(** [df.to_csv(path, index=index)]: the header record, then one record
    per row. With [index=True] pandas puts the row label in front of
    every record and an empty label in front of the header. *)
Definition csv_record (index : bool) (i : nat) (r : row) : list string :=
  if index then pretty i :: cells r else cells r.

Definition to_csv_text (df : DataFrame) (index : bool) : csv_file :=
  (if index then "" :: columns else columns) :: imap (csv_record index) df.

Definition parse_record (l : list string) : result row :=
  match l with
  | [d; t; e; c; m; u; h] => Ok (mkRow d t e c m u h)
  | _ => Raise ParserError
  end.

Fixpoint parse_records (ls : list (list string)) : result DataFrame :=
  match ls with
  | [] => Ok []
  | l :: ls' =>
      r ← parse_record l;
      rs ← parse_records ls';
      Ok (r :: rs)
  end.

(** [pd.read_csv] on the content of a file. A file without a header
    record has no columns to parse; a file that does not carry the
    schema of the Data Model is the unparseable file of the spec. *)
Definition read_csv_text (f : csv_file) : result DataFrame :=
  match f with
  | [] => Raise EmptyDataError
  | h :: ls =>
      if bool_decide (h = columns) then parse_records ls
      else Raise ParserError
  end.

(** [df['date']] *)
Definition col_date (df : DataFrame) : list string := map date df.

(** [series == v], element by element *)
Definition series_eq (s : list string) (v : string) : list bool :=
  map (fun x => bool_decide (x = v)) s.

(** [series.any()] *)
Definition any (s : list bool) : bool := existsb id s.

(** [pd.concat(dfs, ignore_index=True)]: the rows of the frames in
    order, relabelled 0, 1, 2, ... (the position in the list). *)
Definition concat (dfs : list DataFrame) : DataFrame := mjoin dfs.

End Pandas.

Import Pandas.

(** The disk, and computations that use it. *)

Abbreviation filesystem := (gmap string csv_file).

Definition io (A : Type) : Type := filesystem -> filesystem * result A.

#[export] Instance io_ret : MRet io := fun A a fs => (fs, Ok a).

#[export] Instance io_bind : MBind io := fun A B k c fs =>
  match c fs with
  | (fs', Ok a) => k a fs'
  | (fs', Raise e) => (fs', Raise e)
  end.

(** A computation that does not use the disk. *)
Definition io_lift {A} (c : result A) : io A := fun fs => (fs, c).

(** [os.path.exists(path)] *)
Definition os_path_exists (path : string) : io bool :=
  fun fs => (fs, Ok (bool_decide (is_Some (fs !! path)))).

(** [pd.read_csv(path)]; called only behind [os.path.exists]. *)
Definition read_csv (path : string) : io DataFrame :=
  fun fs =>
    match fs !! path with
    | Some f => (fs, read_csv_text f)
    | None => (fs, Raise ParserError)
    end.

(** [df.to_csv(path, index=index)] overwrites the file at [path]. *)
Definition to_csv (df : DataFrame) (path : string) (index : bool) : io unit :=
  fun fs => (<[path := to_csv_text df index]> fs, Ok tt).

(** ** The program *)

(** Line 18: the request URL. [API_KEY] is [os.getenv('NASA_API_KEY')],
    which is [None] when the variable is not set. *)
Definition apod_url (API_KEY : option string) (date : string) : string :=
  "https://api.nasa.gov/planetary/apod?date=" +:+ date +:+ "&api_key=" +:+ str_opt API_KEY.

(** Lines 16-36. The two [print] calls write to the console only and are
    left out. *)
Definition fetch_apod (API_KEY : option string)
    (requests_get : string -> result response) (date : string) : result dict :=
  response ← requests_get (apod_url API_KEY date);
  if bool_decide (status_code response = 200%Z) then
    apod_data ← json response;
    if contains "date" apod_data then Ok apod_data
    else Ok ∅
  else Ok ∅.

(** Lines 41-49: the one-row frame. The dict literal evaluates its values
    from top to bottom, so the first missing key is the one reported. *)
Definition new_data (data : dict) : result DataFrame :=
  d ← getitem data "date";
  t ← getitem data "title";
  e ← getitem data "explanation";
  let c := get data "copyright" "No copyright info" in
  m ← getitem data "media_type";
  u ← getitem data "url";
  let h := get data "hdurl" "" in
  Ok [mkRow d t e c m u h].

(** Lines 39-64. *)
Definition update_apod_db (data : dict) (db_file : string) : io DataFrame :=
  new_data ← io_lift (new_data data);
  apod_df ←
    (ex ← os_path_exists db_file;
     if (ex : bool) then
       apod_df ← read_csv db_file;
       d ← io_lift (getitem data "date");
       if negb (any (series_eq (col_date apod_df) d)) then
         mret (concat [apod_df; new_data])
       else mret apod_df
     else mret new_data);
  _ ← to_csv apod_df db_file false;
  mret apod_df.

(** The default of the parameter [db_file]. *)
Definition default_db_file : string := "nasa_apod.csv".


(** ** The date picker and the window

    [gui_launch] builds three read-only dropdowns and hands
    [display_apod] to the button. What the callback sees of the window
    is the text of the three variables, the text of the two labels and
    the picture of the image label. *)

Module PyStr.

(** [str(i)] for an int *)
Definition str (i : Z) : string := pretty i.

Fixpoint zeros (n : nat) : string :=
  match n with
  | O => ""
  | S n' => String "0"%char (zeros n')
  end.

(** [s.zfill(width)]: zeros are put in front up to [width] characters,
    behind a leading sign when there is one. *)
Definition zfill (width : nat) (s : string) : string :=
  if decide (width <= String.length s)%nat then s
  else
    let fill := zeros (width - String.length s) in
    match s with
    | String c rest =>
        if bool_decide (c = "+"%char \/ c = "-"%char)
        then String c (fill +:+ rest)
        else fill +:+ s
    | EmptyString => fill
    end.

(** [range(a, b)] *)
Definition range (a b : Z) : list Z :=
  map (fun i : nat => (a + Z.of_nat i)%Z) (seq 0 (Z.to_nat (b - a))).

(** [bool(s)] for [s] a string or [None] *)
Definition truthy_str (s : option string) : bool :=
  match s with
  | Some (String _ _) => true
  | _ => false
  end.

End PyStr.

Import PyStr.

(** Lines 114, 121 and 128: the choices of the three dropdowns.
    [now_year] is [datetime.datetime.now().year]. *)
Definition month_options : list string :=
  map (fun i => zfill 2 (str i)) (range 1 13).

Definition day_options : list string :=
  map (fun i => zfill 2 (str i)) (range 1 32).

Definition year_options (now_year : Z) : list string :=
  map str (range 1995 (now_year + 1)).

(** Line 68: the f-string. *)
Definition selected_date (year month day : string) : string :=
  year +:+ "-" +:+ month +:+ "-" +:+ day.

(** A decoded picture: its size and the bytes it was decoded from. *)
Record Image : Type := mkImage {
  img_size : nat * nat;
  img_bytes : string
}.

(** [image.resize((w, h))] *)
Definition resize (im : Image) (wh : nat * nat) : Image :=
  mkImage wh (img_bytes im).

Record widgets : Type := mkWidgets {
  year_var : string;
  month_var : string;
  day_var : string;
  title_label : string;
  explanation_label : string;
  image_label : option Image
}.

(** Lines 115-148: the window as [gui_launch] leaves it before the event
    loop starts. *)
Definition gui_initial : widgets :=
  mkWidgets "YYYY" "MM" "DD" "" "" None.

(** A callback works on the window and on the disk. *)
Definition gui (A : Type) : Type :=
  widgets * filesystem -> (widgets * filesystem) * result A.

#[export] Instance gui_ret : MRet gui := fun A a st => (st, Ok a).

#[export] Instance gui_bind : MBind gui := fun A B k c st =>
  match c st with
  | (st', Ok a) => k a st'
  | (st', Raise e) => (st', Raise e)
  end.

Definition gui_lift {A} (c : result A) : gui A := fun st => (st, c).

Definition gui_io {A} (c : io A) : gui A := fun st =>
  match c st.2 with
  | (fs', r) => ((st.1, fs'), r)
  end.

(** [var.get()] *)
Definition var_get (var : widgets -> string) : gui string :=
  fun st => (st, Ok (var st.1)).

(** [label.config(...)] *)
Definition config (f : widgets -> widgets) : gui unit :=
  fun st => ((f st.1, st.2), Ok tt).

Definition set_title (text : string) (w : widgets) : widgets :=
  mkWidgets (year_var w) (month_var w) (day_var w)
    text (explanation_label w) (image_label w).

Definition set_explanation (text : string) (w : widgets) : widgets :=
  mkWidgets (year_var w) (month_var w) (day_var w)
    (title_label w) text (image_label w).

Definition set_image (image : option Image) (w : widgets) : widgets :=
  mkWidgets (year_var w) (month_var w) (day_var w)
    (title_label w) (explanation_label w) image.

(** Lines 66-92. [Image_open] is [Image.open] on the stream of a
    response; it raises on bytes that are not a picture. The picture is
    requested twice, as in the source, and the first response is not
    used. *)
Definition display_apod (API_KEY : option string)
    (requests_get : string -> result response)
    (Image_open : response -> result Image) : gui unit :=
  y ← var_get year_var;
  m ← var_get month_var;
  d ← var_get day_var;
  let selected := selected_date y m d in
  apod_data ← gui_lift (fetch_apod API_KEY requests_get selected);
  if negb (truthy apod_data) then
    _ ← config (set_title "Failed to fetch data.");
    _ ← config (set_explanation "Please check the date and try again.");
    _ ← config (set_image None);
    mret tt
  else
    _ ← config (set_title (get apod_data "title" "No Title"));
    _ ← config (set_explanation (get apod_data "explanation" "No Explanation"));
    let image_url := apod_data !! "url" in
    _ ← (if truthy_str image_url then
           image_response ← gui_lift (requests_get (default "" image_url));
           streamed ← gui_lift (requests_get (default "" image_url));
           image_data ← gui_lift (Image_open streamed);
           let image_data := resize image_data (400, 400)%nat in
           config (set_image (Some image_data))
         else mret tt);
    _ ← gui_io (update_apod_db apod_data default_db_file);
    mret tt.

(** ** Vocabulary of the statements *)

(** The keys that [update_apod_db] reads with [data[...]]. *)
Definition required_keys : list string :=
  ["date"; "title"; "explanation"; "media_type"; "url"].



(** The row that the Data Model assigns to a record: its five required
    fields, and the defaults for [copyright] and [hdurl]. *)
Definition is_row_of (data : dict) (r : row) : Prop :=
  data !! "date" = Some (date r) /\
  data !! "title" = Some (title r) /\
  data !! "explanation" = Some (explanation r) /\
  copyright r = default "No copyright info" (data !! "copyright") /\
  data !! "media_type" = Some (media_type r) /\
  data !! "url" = Some (url r) /\
  hdurl r = default "" (data !! "hdurl").


(** A decimal digit. *)
Definition is_digit (c : ascii) : bool :=
  (48 <=? nat_of_ascii c)%nat && (nat_of_ascii c <=? 57)%nat.

Fixpoint all_digits (s : string) : bool :=
  match s with
  | EmptyString => true
  | String c s' => is_digit c && all_digits s'
  end.

Definition digits_of_length (n : nat) (s : string) : bool :=
  (String.length s =? n)%nat && all_digits s.

Definition is_dash (c : option ascii) : bool :=
  bool_decide (c = Some "-"%char).

(** The shape YYYY-MM-DD that the service expects: ten characters,
    digits except for a dash in the fifth and in the eighth place. *)
Definition iso_shape (s : string) : bool :=
  (String.length s =? 10)%nat &&
  all_digits (String.substring 0 4 s) && is_dash (String.get 4 s) &&
  all_digits (String.substring 5 2 s) && is_dash (String.get 7 s) &&
  all_digits (String.substring 8 2 s).

(** ** Sample data

    The records of the scenarios of the spec, and a remote service that
    answers every request with one fixed response. *)

Module Sample.

Definition apod_0101 : dict :=
  list_to_map [("date", "2024-01-01"); ("title", "T1"); ("explanation", "E1");
               ("media_type", "image"); ("url", "http://x/1")].

(** Same date, another title. *)
Definition apod_0101_retitled : dict := <["title" := "T2"]> apod_0101.

Definition apod_0102 : dict :=
  list_to_map [("date", "2024-01-02"); ("title", "T2"); ("explanation", "E2");
               ("copyright", "C2"); ("media_type", "video"); ("url", "http://x/2");
               ("hdurl", "http://x/2/hd")].

(** A body with a date and nothing else, as an error page of the
    service could be. *)
Definition apod_date_only : dict := {["date" := "2024-01-03"]}.

Definition row_0101 : row :=
  mkRow "2024-01-01" "T1" "E1" "No copyright info" "image" "http://x/1" "".


(** A disk whose cache holds the row of 2024-01-01. *)
Definition disk_0101 : filesystem :=
  {[default_db_file := to_csv_text [row_0101] false]}.

(** A disk whose cache file is there and has no byte in it. *)
Definition disk_zero_bytes : filesystem := {[default_db_file := []]}.

Definition serve (r : response) : string -> result response := fun _ => Ok r.

(** Status 200 and a body that parses to [body]. *)
Definition resp_ok (body : dict) : response := mkResponse 200 "{...}" (Ok body).

(** Status 200 and a body that is not JSON. *)
Definition resp_html : response :=
  mkResponse 200 "<html></html>" (Raise JSONDecodeError).

(** Status 400 with the JSON error object of the service. *)
Definition resp_bad_request : response :=
  mkResponse 400 "{...}" (Ok (list_to_map [("code", "400"); ("msg", "Bad Request")])).


(** A record whose [url] is there and empty. *)
Definition apod_0101_no_picture : dict := <["url" := ""]> apod_0101.

(** The window after 2024-01-01 was picked, with a picture of an
    earlier day still on display. *)
Definition picked_0101 : widgets :=
  mkWidgets "2024" "01" "01" "T0" "E0" (Some (mkImage (400, 400)%nat "old")).

(** Every stream decodes to one picture of 1024 by 768. *)
Definition decode_jpeg : response -> result Image :=
  fun _ => Ok (mkImage (1024, 768)%nat "jpeg").

(** The service answers with [body]; the picture at http://x/1 cannot
    be reached. *)
Definition serve_without_picture (body : dict) : string -> result response :=
  fun u => if bool_decide (u = "http://x/1") then Raise ConnectionError
           else Ok (resp_ok body).

(** No network at all. *)
Definition offline : string -> result response := fun _ => Raise ConnectionError.

End Sample.

(** ** The CSV codec *)

Section codec.










End codec.

(** ** The duplicate check *)



(** ** The record behind a row *)

Lemma new_data_is_row_of (data : dict) (nd : DataFrame) :
  new_data data = Ok nd -> exists r, nd = [r] /\ is_row_of data r.
Proof.
  unfold new_data, getitem, get, is_row_of, mbind, result_bind.
  destruct (data !! "date") as [d|]; [|discriminate].
  destruct (data !! "title") as [t|]; [|discriminate].
  destruct (data !! "explanation") as [e|]; [|discriminate].
  destruct (data !! "media_type") as [m|]; [|discriminate].
  destruct (data !! "url") as [u|]; [|discriminate].
  intros [= <-]. eexists. split; [reflexivity|].
  cbn. destruct (data !! "copyright"), (data !! "hdurl"); done.
Qed.

Lemma is_row_of_new_data (data : dict) (r : row) :
  is_row_of data r -> new_data data = Ok [r].
Proof.
  intros (Hd & Ht & He & Hc & Hm & Hu & Hh).
  unfold new_data, getitem, get, mbind, result_bind.
  rewrite Hd, Ht, He, Hm, Hu. destruct r as [d t e c m u h]; cbn in *.
  rewrite Hc, Hh. destruct (data !! "copyright"), (data !! "hdurl"); done.
Qed.

Lemma is_row_of_inj (data : dict) (r1 r2 : row) :
  is_row_of data r1 -> is_row_of data r2 -> r1 = r2.
Proof.
  intros H1%is_row_of_new_data H2%is_row_of_new_data. congruence.
Qed.

(** A record has a row exactly when it has the five required keys. *)
Lemma new_data_returns (data : dict) :
  returns (new_data data) <-> Forall (fun k => is_Some (data !! k)) required_keys.
Proof.
  unfold required_keys. rewrite !Forall_cons, Forall_nil. split.
  - intros [nd (r & _ & Hd & Ht & He & _ & Hm & Hu & _)%new_data_is_row_of].
    rewrite Hd, Ht, He, Hm, Hu. eauto 10.
  - intros ([d Hd] & [t Ht] & [e He] & [m Hm] & [u Hu] & _).
    unfold returns, new_data, getitem, mbind, result_bind.
    rewrite Hd, Ht, He, Hm, Hu. eauto.
Qed.

(** The exception of [new_data] names a required key that is missing. *)
Lemma new_data_raises (data : dict) (e : exn) :
  new_data data = Raise e ->
  exists k, e = KeyError k /\ k ∈ required_keys /\ data !! k = None.
Proof.
  unfold new_data, getitem, mbind, result_bind, required_keys.
  destruct (data !! "date") eqn:Hd;
    [|intros [= <-]; eexists; split; [done|]; split; [set_solver|done]].
  destruct (data !! "title") eqn:Ht;
    [|intros [= <-]; eexists; split; [done|]; split; [set_solver|done]].
  destruct (data !! "explanation") eqn:He;
    [|intros [= <-]; eexists; split; [done|]; split; [set_solver|done]].
  destruct (data !! "media_type") eqn:Hm;
    [|intros [= <-]; eexists; split; [done|]; split; [set_solver|done]].
  destruct (data !! "url") eqn:Hu;
    [|intros [= <-]; eexists; split; [done|]; split; [set_solver|done]].
  discriminate.
Qed.

(** ** The store, case by case *)

(** The branches of [update_apod_db] after the monad is unfolded. *)
Lemma update_apod_db_unfold (data : dict) (db_file : string) (fs : filesystem) :
  update_apod_db data db_file fs =
  match new_data data with
  | Raise e => (fs, Raise e)
  | Ok nd =>
      match fs !! db_file with
      | None => (<[db_file := to_csv_text nd false]> fs, Ok nd)
      | Some f =>
          match read_csv_text f with
          | Raise e => (fs, Raise e)
          | Ok apod_df =>
              match getitem data "date" with
              | Raise e => (fs, Raise e)
              | Ok d =>
                  let df := if negb (any (series_eq (col_date apod_df) d))
                            then apod_df ++ nd else apod_df in
                  (<[db_file := to_csv_text df false]> fs, Ok df)
              end
          end
      end
  end.
Proof.
  unfold update_apod_db, mbind, io_bind, io_lift, os_path_exists, read_csv,
    to_csv, mret, io_ret, concat.
  destruct (new_data data) as [nd|e]; [|reflexivity].
  destruct (fs !! db_file) as [f|] eqn:Hf.
  - rewrite bool_decide_eq_true_2 by eauto. rewrite Hf.
    destruct (read_csv_text f) as [apod_df|e]; [|reflexivity].
    destruct (getitem data "date") as [d|e]; [|reflexivity].
    destruct (any (series_eq (col_date apod_df) d)); cbn; rewrite ?app_nil_r; reflexivity.
  - rewrite bool_decide_eq_false_2 by (intros [? ?]; discriminate).
    reflexivity.
Qed.














(** * The claims *)

(** ** C1 *)



(** ** C2 *)



(** The scenario of the spec, run: the cache holds 2024-01-01 with title
    T1, the record has the same date and title T2. *)
Example update_apod_db_keeps_title :
  update_apod_db Sample.apod_0101_retitled default_db_file Sample.disk_0101 =
    (Sample.disk_0101, Ok [Sample.row_0101]).
Proof. vm_compute. reflexivity. Qed.

(** ** The fetcher, case by case *)

Section fetcher.

Variable API_KEY : option string.
Variable requests_get : string -> result response.
Variable day : string.

(** [requests.get] raises: nothing catches the exception. *)
Lemma fetch_apod_transport (e : exn) :
  requests_get (apod_url API_KEY day) = Raise e ->
  fetch_apod API_KEY requests_get day = Raise e.
Proof. intros Hget. unfold fetch_apod. rewrite Hget. reflexivity. Qed.

Variable r : response.
Hypothesis Hget : requests_get (apod_url API_KEY day) = Ok r.

Lemma fetch_apod_non_success :
  status_code r <> 200%Z -> fetch_apod API_KEY requests_get day = Ok ∅.
Proof.
  intros Hst. unfold fetch_apod. rewrite Hget. cbn.
  by rewrite bool_decide_eq_false_2.
Qed.

Lemma fetch_apod_malformed (e : exn) :
  status_code r = 200%Z -> json r = Raise e ->
  fetch_apod API_KEY requests_get day = Raise e.
Proof.
  intros Hst Hjs. unfold fetch_apod. rewrite Hget. cbn.
  rewrite bool_decide_eq_true_2 by done. rewrite Hjs. reflexivity.
Qed.

Lemma fetch_apod_no_date (body : dict) :
  json r = Ok body -> body !! "date" = None ->
  fetch_apod API_KEY requests_get day = Ok ∅.
Proof.
  intros Hjs Hd. unfold fetch_apod. rewrite Hget. cbn.
  case_bool_decide; [|done]. rewrite Hjs. cbn.
  unfold contains. rewrite Hd. by rewrite bool_decide_eq_false_2 by by intros [? ?].
Qed.

Lemma fetch_apod_dated (body : dict) :
  status_code r = 200%Z -> json r = Ok body -> is_Some (body !! "date") ->
  fetch_apod API_KEY requests_get day = Ok body.
Proof.
  intros Hst Hjs Hd. unfold fetch_apod. rewrite Hget. cbn.
  rewrite bool_decide_eq_true_2 by done. rewrite Hjs. cbn.
  unfold contains. by rewrite bool_decide_eq_true_2.
Qed.

End fetcher.


Lemma truthy_spec (data : dict) : truthy data = true <-> data <> ∅.
Proof.
  unfold truthy. rewrite negb_true_iff, bool_decide_eq_false. done.
Qed.


(** ** C3 *)

(** C3, as stated, fails. A response with status 200 whose body is not
    JSON makes [response.json()] raise, and [fetch_apod] has no handler:
    the exception reaches the caller. And a body that has [date] but none
    of the other required keys is returned as it is, not as the empty
    result. *)
Lemma fetch_apod_not_always_empty :
  fetch_apod None (Sample.serve Sample.resp_html) "2024-01-01" = Raise JSONDecodeError /\
  fetch_apod None (Sample.serve (Sample.resp_ok Sample.apod_date_only)) "2024-01-03"
    = Ok Sample.apod_date_only /\
  Sample.apod_date_only <> ∅ /\
  Sample.apod_date_only !! "title" = None.
Proof.
  split; [reflexivity|]. split; [vm_compute; reflexivity|].
  split; [|reflexivity].
  intros Heq. apply (f_equal (fun m : dict => m !! "date")) in Heq. discriminate.
Qed.

(** C3, amended. For a response that [requests.get] delivered:
    a status other than 200 gives the empty result, whatever the body is;
    status 200 with a body that parses to an object without [date] gives
    the empty result; in both cases nothing is raised. Status 200 with a
    body that does not parse raises the parser's exception past
    [fetch_apod]. Status 200 with an object that has [date] gives that
    object, whatever other keys it lacks. *)
Theorem fetch_apod_outcomes (API_KEY : option string)
    (requests_get : string -> result response) (day : string) (r : response) :
  requests_get (apod_url API_KEY day) = Ok r ->
  (status_code r <> 200%Z -> fetch_apod API_KEY requests_get day = Ok ∅) /\
  (forall body, status_code r = 200%Z -> json r = Ok body -> body !! "date" = None ->
     fetch_apod API_KEY requests_get day = Ok ∅) /\
  (forall e, status_code r = 200%Z -> json r = Raise e ->
     fetch_apod API_KEY requests_get day = Raise e) /\
  (forall body, status_code r = 200%Z -> json r = Ok body -> is_Some (body !! "date") ->
     fetch_apod API_KEY requests_get day = Ok body).
Proof.
  intros Hget. repeat split.
  - by apply fetch_apod_non_success.
  - intros body _. by apply fetch_apod_no_date.
  - intros e. by apply fetch_apod_malformed.
  - intros body. by apply fetch_apod_dated.
Qed.

Lemma fetch_apod_outcomes_witness :
  fetch_apod (Some "DEMO_KEY") (Sample.serve Sample.resp_bad_request) "1990-01-01" = Ok ∅.
Proof.
  destruct (fetch_apod_outcomes (Some "DEMO_KEY") (Sample.serve Sample.resp_bad_request)
              "1990-01-01" Sample.resp_bad_request eq_refl) as [Hempty _].
  apply Hempty. vm_compute. discriminate.
Defined.

(** ** C5 *)

(** C5, as stated, fails. The body of a successful response without
    [copyright] and [hdurl] comes back from [fetch_apod] without these
    two keys: no default has been put in. *)
Lemma fetch_apod_applies_no_default :
  exists data,
    fetch_apod None (Sample.serve (Sample.resp_ok Sample.apod_0101)) "2024-01-01" = Ok data /\
    data !! "copyright" = None /\ data !! "hdurl" = None.
Proof. exists Sample.apod_0101. repeat split; vm_compute; reflexivity. Qed.

(** C5, amended. For a successful response, [fetch_apod] returns the
    parsed body unchanged, so [copyright] and [hdurl] are absent from the
    result when the response omitted them. The defaults of the Data Model
    are applied by [update_apod_db], in the row it builds from the record:
    there [copyright] is "No copyright info" when the record has none and
    [hdurl] is the empty string when the record has none, and a value that
    is present is kept. *)
Theorem fetch_apod_defaults_in_store (API_KEY : option string)
    (requests_get : string -> result response) (day : string)
    (r : response) (body : dict) :
  requests_get (apod_url API_KEY day) = Ok r ->
  status_code r = 200%Z -> json r = Ok body -> is_Some (body !! "date") ->
  fetch_apod API_KEY requests_get day = Ok body /\
  forall nd, new_data body = Ok nd ->
    exists row, nd = [row] /\
      (body !! "copyright" = None -> copyright row = "No copyright info") /\
      (body !! "hdurl" = None -> hdurl row = "") /\
      (forall v, body !! "copyright" = Some v -> copyright row = v) /\
      (forall v, body !! "hdurl" = Some v -> hdurl row = v).
Proof.
  intros Hget Hst Hjs Hd. split; [by apply (fetch_apod_dated _ _ _ r)|].
  intros nd (row & -> & _ & _ & _ & Hc & _ & _ & Hh)%new_data_is_row_of.
  exists row. split; [done|]. rewrite Hc, Hh.
  repeat split; try (by intros ->); by intros v ->.
Qed.

Lemma fetch_apod_defaults_in_store_witness :
  fetch_apod None (Sample.serve (Sample.resp_ok Sample.apod_0101)) "2024-01-01"
    = Ok Sample.apod_0101 /\
  forall nd, new_data Sample.apod_0101 = Ok nd ->
    exists row, nd = [row] /\
      (Sample.apod_0101 !! "copyright" = None -> copyright row = "No copyright info") /\
      (Sample.apod_0101 !! "hdurl" = None -> hdurl row = "") /\
      (forall v, Sample.apod_0101 !! "copyright" = Some v -> copyright row = v) /\
      (forall v, Sample.apod_0101 !! "hdurl" = Some v -> hdurl row = v).
Proof.
  apply (fetch_apod_defaults_in_store None (Sample.serve (Sample.resp_ok Sample.apod_0101))
           "2024-01-01" (Sample.resp_ok Sample.apod_0101) Sample.apod_0101);
    first [reflexivity | eexists; vm_compute; reflexivity].
Defined.

(** ** C6 *)

(** C6, as stated, fails. [fetch_apod] never compares the date of the
    body with the date it asked for: a service that answers the request
    for 2024-01-01 with the entry of 2024-01-02 gets that entry
    returned. *)
Lemma fetch_apod_date_not_checked :
  exists data,
    fetch_apod None (Sample.serve (Sample.resp_ok Sample.apod_0102)) "2024-01-01" = Ok data /\
    data !! "date" = Some "2024-01-02" /\
    data !! "date" <> Some "2024-01-01".
Proof.
  exists Sample.apod_0102.
  split; [vm_compute; reflexivity|]. split; [reflexivity|]. vm_compute. discriminate.
Qed.

(** C6, amended. For every requested date for which the remote response
    is successful (status 200 and a body with a [date]), [fetch_apod]
    returns a record whose [date] is the [date] of the body; it is the
    requested date exactly when the service answered with the requested
    date. *)
Theorem fetch_apod_date_of_body (API_KEY : option string)
    (requests_get : string -> result response) (day : string)
    (r : response) (body : dict) (d : string) :
  requests_get (apod_url API_KEY day) = Ok r ->
  status_code r = 200%Z -> json r = Ok body -> body !! "date" = Some d ->
  exists data,
    fetch_apod API_KEY requests_get day = Ok data /\
    data !! "date" = Some d /\
    (data !! "date" = Some day <-> d = day).
Proof.
  intros Hget Hst Hjs Hd. exists body.
  split; [by apply (fetch_apod_dated _ _ _ r)|]. split; [done|].
  rewrite Hd. split; congruence.
Qed.

Lemma fetch_apod_date_of_body_witness :
  exists data,
    fetch_apod (Some "DEMO_KEY") (Sample.serve (Sample.resp_ok Sample.apod_0101))
      "2024-01-01" = Ok data /\
    data !! "date" = Some "2024-01-01" /\
    (data !! "date" = Some "2024-01-01" <-> "2024-01-01" = "2024-01-01").
Proof.
  apply (fetch_apod_date_of_body (Some "DEMO_KEY")
           (Sample.serve (Sample.resp_ok Sample.apod_0101)) "2024-01-01"
           (Sample.resp_ok Sample.apod_0101) Sample.apod_0101 "2024-01-01");
    reflexivity.
Defined.

(** ** C7 *)



(** ** C10 *)



(** ** Runs over fresh dates *)







(** ** C4 *)



(** The first scenario of the spec, run: no cache, one record without
    [copyright] and [hdurl]. *)
Example update_apod_db_first_row :
  update_apod_db Sample.apod_0101 default_db_file ∅ =
    ({[default_db_file :=
         [["date"; "title"; "explanation"; "copyright"; "media_type"; "url"; "hdurl"];
          ["2024-01-01"; "T1"; "E1"; "No copyright info"; "image"; "http://x/1"; ""]]]},
     Ok [Sample.row_0101]).
Proof. vm_compute. reflexivity. Qed.

(** A cache file of zero bytes is not an empty dataset: pandas finds no
    header in it and the upsert stops there. *)
Example update_apod_db_zero_bytes :
  update_apod_db Sample.apod_0101 default_db_file Sample.disk_zero_bytes =
    (Sample.disk_zero_bytes, Raise EmptyDataError).
Proof. vm_compute. reflexivity. Qed.

(** ** C8 *)



(** ** C9 *)



(** * Beyond the claims *)

(** ** The store under any run *)














(** X3. The [KeyError] of an upsert names the first required key that
    the record lacks, in the order date, title, explanation, media_type,
    url: if the required keys before [k] are present and [k] is absent,
    the upsert raises [KeyError k] and the disk is as before. *)
Theorem update_apod_db_first_missing_key (data : dict) (db_file : string)
    (fs : filesystem) (before after : list string) (k : string) :
  required_keys = before ++ k :: after ->
  Forall (fun k0 => is_Some (data !! k0)) before ->
  data !! k = None ->
  update_apod_db data db_file fs = (fs, Raise (KeyError k)).
Proof.
  intros Hsplit Hbefore Hk. rewrite update_apod_db_unfold.
  cut (new_data data = Raise (KeyError k)); [by intros ->|].
  unfold required_keys in Hsplit.
  unfold new_data, getitem, mbind, result_bind.
  do 5 (destruct before as [|? before];
        [injection Hsplit as <- <-; by rewrite Hk|
         injection Hsplit as <- Hsplit;
         apply Forall_cons in Hbefore as [[? ->] Hbefore]]).
  by destruct before.
Qed.

Lemma update_apod_db_first_missing_key_witness :
  update_apod_db (delete "url" (delete "explanation" Sample.apod_0101))
    default_db_file Sample.disk_0101 =
    (Sample.disk_0101, Raise (KeyError "explanation")).
Proof.
  apply (update_apod_db_first_missing_key
           (delete "url" (delete "explanation" Sample.apod_0101))
           default_db_file Sample.disk_0101
           ["date"; "title"] ["media_type"; "url"] "explanation").
  - reflexivity.
  - repeat apply Forall_cons_2; try apply Forall_nil_2; eexists; vm_compute; reflexivity.
  - vm_compute. reflexivity.
Defined.







(** ** The fetcher and its exceptions *)


(** ** The callback of the button *)

Lemma truthy_str_spec (u : string) : truthy_str (Some u) = true <-> u <> "".
Proof. destruct u; cbn; split; done. Qed.

(** The branches of [display_apod] after the monad is unfolded. *)
Lemma display_apod_unfold (API_KEY : option string)
    (requests_get : string -> result response)
    (Image_open : response -> result Image) (w : widgets) (fs : filesystem) :
  display_apod API_KEY requests_get Image_open (w, fs) =
  match fetch_apod API_KEY requests_get
          (selected_date (year_var w) (month_var w) (day_var w)) with
  | Raise e => ((w, fs), Raise e)
  | Ok data =>
      if truthy data then
        let w1 := set_explanation (get data "explanation" "No Explanation")
                    (set_title (get data "title" "No Title") w) in
        match (if truthy_str (data !! "url") then
                 _ ← requests_get (default "" (data !! "url"));
                 streamed ← requests_get (default "" (data !! "url"));
                 image_data ← Image_open streamed;
                 Ok (set_image (Some (resize image_data (400, 400)%nat)) w1)
               else Ok w1) with
        | Raise e => ((w1, fs), Raise e)
        | Ok w2 =>
            ((w2, (update_apod_db data default_db_file fs).1),
             (update_apod_db data default_db_file fs).2 ≫= fun _ => Ok tt)
        end
      else
        ((set_image None
            (set_explanation "Please check the date and try again."
               (set_title "Failed to fetch data." w)), fs), Ok tt)
  end.
Proof.
  unfold display_apod, var_get, gui_lift, config, gui_io, mret, gui_ret.
  unfold mbind at 1 2 3 4, gui_bind. cbn [fst snd].
  destruct (fetch_apod _ _ _) as [data|e]; [|reflexivity].
  destruct (truthy data); cbn [negb]; [|reflexivity].
  unfold mbind at 1 2 3, gui_bind. cbn [fst snd].
  destruct (truthy_str (data !! "url")).
  - unfold mbind, gui_bind, result_bind. cbn [fst snd].
    destruct (requests_get (default "" (data !! "url"))) as [r|e]; [|reflexivity].
    destruct (Image_open r) as [im|e]; [|reflexivity]. cbn [fst snd].
    by destruct (update_apod_db data default_db_file fs) as [fs' [df|e]].
  - unfold mbind, gui_bind, result_bind. cbn [fst snd].
    by destruct (update_apod_db data default_db_file fs) as [fs' [df|e]].
Qed.

Section display.

Variable API_KEY : option string.
Variable requests_get : string -> result response.
Variable Image_open : response -> result Image.
Variable w : widgets.
Variable fs : filesystem.

(** X8. When the fetch gives the empty record, the callback completes:
    the title reads "Failed to fetch data.", the explanation reads
    "Please check the date and try again.", the picture is cleared, the
    three date variables keep their text and the disk is not touched. *)
Theorem display_apod_failure :
  fetch_apod API_KEY requests_get
    (selected_date (year_var w) (month_var w) (day_var w)) = Ok ∅ ->
  display_apod API_KEY requests_get Image_open (w, fs) =
    ((mkWidgets (year_var w) (month_var w) (day_var w)
        "Failed to fetch data." "Please check the date and try again." None, fs),
     Ok tt).
Proof.
  intros Hfetch. rewrite display_apod_unfold. by rewrite Hfetch.
Qed.

(** X9. When the fetch raises, the callback raises the same exception
    and nothing has changed: the window still shows what it showed, the
    failure message included in no label, and the disk is as before. *)
Theorem display_apod_fetch_raises (e : exn) :
  fetch_apod API_KEY requests_get
    (selected_date (year_var w) (month_var w) (day_var w)) = Raise e ->
  display_apod API_KEY requests_get Image_open (w, fs) = ((w, fs), Raise e).
Proof.
  intros Hfetch. rewrite display_apod_unfold. by rewrite Hfetch.
Qed.

(** X10. When the record has a non-empty [url] and the picture cannot be
    had (the request for it raises, or its bytes do not decode), the
    callback raises that exception after it has put the new title and
    explanation in the window: the picture on display is still the old
    one, and the record is not upserted, the disk is as before. *)
Theorem display_apod_picture_fails (data : dict) (u : string) (e : exn) :
  fetch_apod API_KEY requests_get
    (selected_date (year_var w) (month_var w) (day_var w)) = Ok data ->
  data <> ∅ -> data !! "url" = Some u -> u <> "" ->
  (requests_get u = Raise e \/
   exists r, requests_get u = Ok r /\ Image_open r = Raise e) ->
  display_apod API_KEY requests_get Image_open (w, fs) =
    ((mkWidgets (year_var w) (month_var w) (day_var w)
        (get data "title" "No Title") (get data "explanation" "No Explanation")
        (image_label w), fs),
     Raise e).
Proof.
  intros Hfetch Hne%truthy_spec Hurl Hu%truthy_str_spec Hfail.
  rewrite display_apod_unfold. rewrite Hfetch, Hne, Hurl, Hu. cbn zeta.
  cbn [from_option id]. unfold mbind, result_bind.
  destruct Hfail as [->|(r & -> & ->)]; reflexivity.
Qed.

(** X11. When the record has a non-empty [url] and its picture decodes,
    the window shows the title and the explanation of the record ("No
    Title" and "No Explanation" when it has none) and the picture at
    400 by 400 whatever its size was; the record is then upserted into
    nasa_apod.csv, and the callback ends as that upsert ends. *)
Theorem display_apod_shows_and_stores (data : dict) (u : string) (r : response)
    (im : Image) :
  fetch_apod API_KEY requests_get
    (selected_date (year_var w) (month_var w) (day_var w)) = Ok data ->
  data <> ∅ -> data !! "url" = Some u -> u <> "" ->
  requests_get u = Ok r -> Image_open r = Ok im ->
  display_apod API_KEY requests_get Image_open (w, fs) =
    ((mkWidgets (year_var w) (month_var w) (day_var w)
        (get data "title" "No Title") (get data "explanation" "No Explanation")
        (Some (mkImage (400, 400)%nat (img_bytes im))),
      (update_apod_db data "nasa_apod.csv" fs).1),
     (update_apod_db data "nasa_apod.csv" fs).2 ≫= fun _ => Ok tt).
Proof.
  intros Hfetch Hne%truthy_spec Hurl Hu%truthy_str_spec Hget Hopen.
  rewrite display_apod_unfold. rewrite Hfetch, Hne, Hurl, Hu. cbn zeta.
  cbn [from_option id]. unfold mbind at 1 2 3, result_bind. by rewrite Hget, Hopen.
Qed.

(** X12. When the record has no [url], or an empty one, no picture is
    asked for: the window gets the new title and explanation and keeps
    the picture it had, and the upsert is still run. With the key [url]
    absent that upsert cannot succeed: the callback raises [KeyError]
    and the disk is as before. *)
Theorem display_apod_without_picture (data : dict) :
  fetch_apod API_KEY requests_get
    (selected_date (year_var w) (month_var w) (day_var w)) = Ok data ->
  data <> ∅ ->
  data !! "url" = None \/ data !! "url" = Some "" ->
  display_apod API_KEY requests_get Image_open (w, fs) =
    ((mkWidgets (year_var w) (month_var w) (day_var w)
        (get data "title" "No Title") (get data "explanation" "No Explanation")
        (image_label w),
      (update_apod_db data "nasa_apod.csv" fs).1),
     (update_apod_db data "nasa_apod.csv" fs).2 ≫= fun _ => Ok tt) /\
  (data !! "url" = None ->
   exists k, display_apod API_KEY requests_get Image_open (w, fs) =
     ((mkWidgets (year_var w) (month_var w) (day_var w)
         (get data "title" "No Title") (get data "explanation" "No Explanation")
         (image_label w), fs),
      Raise (KeyError k))).
Proof.
  intros Hfetch Hne%truthy_spec Hurl.
  assert (truthy_str (data !! "url") = false) as Hno
    by (destruct Hurl as [->| ->]; reflexivity).
  rewrite display_apod_unfold. rewrite Hfetch, Hne, Hno. cbn zeta.
  split; [reflexivity|]. intros Hnone.
  destruct (new_data data) as [nd|e] eqn:Hnd.
  - assert (returns (new_data data)) as Hret by (by exists nd).
    apply new_data_returns in Hret. unfold required_keys in Hret.
    rewrite !Forall_cons in Hret. destruct Hret as (_ & _ & _ & _ & [v Hv] & _).
    congruence.
  - destruct (new_data_raises _ _ Hnd) as (k & -> & _ & _).
    exists k. by rewrite update_apod_db_unfold, Hnd.
Qed.



End display.

Lemma display_apod_failure_witness :
  display_apod None (Sample.serve Sample.resp_bad_request) Sample.decode_jpeg
    (Sample.picked_0101, Sample.disk_0101) =
    ((mkWidgets "2024" "01" "01"
        "Failed to fetch data." "Please check the date and try again." None,
      Sample.disk_0101),
     Ok tt).
Proof.
  apply (display_apod_failure None (Sample.serve Sample.resp_bad_request)
           Sample.decode_jpeg Sample.picked_0101 Sample.disk_0101).
  vm_compute. reflexivity.
Defined.

Lemma display_apod_fetch_raises_witness :
  display_apod None Sample.offline Sample.decode_jpeg
    (Sample.picked_0101, Sample.disk_0101) =
    ((Sample.picked_0101, Sample.disk_0101), Raise ConnectionError).
Proof.
  apply (display_apod_fetch_raises None Sample.offline Sample.decode_jpeg
           Sample.picked_0101 Sample.disk_0101 ConnectionError).
  vm_compute. reflexivity.
Defined.

Lemma display_apod_picture_fails_witness :
  display_apod None (Sample.serve_without_picture Sample.apod_0101) Sample.decode_jpeg
    (Sample.picked_0101, ∅) =
    ((mkWidgets "2024" "01" "01" "T1" "E1" (Some (mkImage (400, 400)%nat "old")), ∅),
     Raise ConnectionError).
Proof.
  apply (display_apod_picture_fails None
           (Sample.serve_without_picture Sample.apod_0101) Sample.decode_jpeg
           Sample.picked_0101 ∅ Sample.apod_0101 "http://x/1" ConnectionError).
  - vm_compute. reflexivity.
  - intros Heq. apply (f_equal (fun m : dict => m !! "date")) in Heq.
    vm_compute in Heq. discriminate.
  - vm_compute. reflexivity.
  - discriminate.
  - left. vm_compute. reflexivity.
Defined.

Lemma display_apod_shows_and_stores_witness :
  display_apod None (Sample.serve (Sample.resp_ok Sample.apod_0101)) Sample.decode_jpeg
    (Sample.picked_0101, ∅) =
    ((mkWidgets "2024" "01" "01" "T1" "E1" (Some (mkImage (400, 400)%nat "jpeg")),
      (update_apod_db Sample.apod_0101 "nasa_apod.csv" ∅).1),
     (update_apod_db Sample.apod_0101 "nasa_apod.csv" ∅).2 ≫= fun _ => Ok tt).
Proof.
  apply (display_apod_shows_and_stores None
           (Sample.serve (Sample.resp_ok Sample.apod_0101)) Sample.decode_jpeg
           Sample.picked_0101 ∅ Sample.apod_0101 "http://x/1"
           (Sample.resp_ok Sample.apod_0101) (mkImage (1024, 768)%nat "jpeg")).
  - vm_compute. reflexivity.
  - intros Heq. apply (f_equal (fun m : dict => m !! "date")) in Heq.
    vm_compute in Heq. discriminate.
  - vm_compute. reflexivity.
  - discriminate.
  - vm_compute. reflexivity.
  - vm_compute. reflexivity.
Defined.

Lemma display_apod_without_picture_witness :
  display_apod None (Sample.serve (Sample.resp_ok Sample.apod_0101_no_picture))
    Sample.decode_jpeg (Sample.picked_0101, ∅) =
    ((mkWidgets "2024" "01" "01" "T1" "E1" (Some (mkImage (400, 400)%nat "old")),
      (update_apod_db Sample.apod_0101_no_picture "nasa_apod.csv" ∅).1),
     (update_apod_db Sample.apod_0101_no_picture "nasa_apod.csv" ∅).2
       ≫= fun _ => Ok tt).
Proof.
  apply (display_apod_without_picture None
           (Sample.serve (Sample.resp_ok Sample.apod_0101_no_picture))
           Sample.decode_jpeg Sample.picked_0101 ∅ Sample.apod_0101_no_picture).
  - vm_compute. reflexivity.
  - intros Heq. apply (f_equal (fun m : dict => m !! "date")) in Heq.
    vm_compute in Heq. discriminate.
  - right. vm_compute. reflexivity.
Defined.

(** ** The date picker *)

Lemma range_elem (a b i : Z) : i ∈ range a b <-> (a <= i < b)%Z.
Proof.
  unfold range. change (map ?f ?l) with (f <$> l). rewrite list_elem_of_fmap. split.
  - intros (n & -> & Hn%elem_of_seq). lia.
  - intros Hi. exists (Z.to_nat (i - a)). split; [lia|]. apply elem_of_seq. lia.
Qed.

Lemma range_length (a b : Z) : length (range a b) = Z.to_nat (b - a).
Proof. unfold range. by rewrite length_map, length_seq. Qed.

Lemma range_NoDup (a b : Z) : NoDup (range a b).
Proof.
  unfold range. change (map ?f ?l) with (f <$> l).
  apply NoDup_fmap_2; [intros x y; lia|apply NoDup_seq].
Qed.

Lemma year_options_elem (now_year : Z) (y : string) :
  y ∈ year_options now_year <-> exists i, (1995 <= i <= now_year)%Z /\ y = str i.
Proof.
  unfold year_options. change (map ?f ?l) with (f <$> l). rewrite list_elem_of_fmap.
  split; intros (i & H1 & H2).
  - apply range_elem in H2. exists i. split; [lia|done].
  - exists i. split; [done|]. apply range_elem. lia.
Qed.

(** X15. The year dropdown offers exactly the years from 1995 to the
    current year, each once, written in decimal: its length is the
    current year minus 1994, and it is empty should the clock say a year
    before 1995. *)
Theorem year_options_spec (now_year : Z) :
  (forall y, y ∈ year_options now_year <->
     exists i, (1995 <= i <= now_year)%Z /\ y = str i) /\
  length (year_options now_year) = Z.to_nat (now_year - 1994) /\
  NoDup (year_options now_year).
Proof.
  split; [intros y; apply year_options_elem|].
  unfold year_options. split.
  - rewrite length_map, range_length. f_equal. lia.
  - change (map ?f ?l) with (f <$> l). apply NoDup_fmap_2; [|apply range_NoDup].
    unfold str. apply _.
Qed.

Lemma year_options_9999 :
  forallb (digits_of_length 4) (year_options 9999) = true.
Proof. vm_compute. reflexivity. Qed.

Lemma month_options_digits : forallb (digits_of_length 2) month_options = true.
Proof. vm_compute. reflexivity. Qed.

Lemma day_options_digits : forallb (digits_of_length 2) day_options = true.
Proof. vm_compute. reflexivity. Qed.

Lemma selected_date_iso (y m d : string) :
  digits_of_length 4 y = true -> digits_of_length 2 m = true ->
  digits_of_length 2 d = true -> iso_shape (selected_date y m d) = true.
Proof.
  unfold digits_of_length. rewrite !andb_true_iff, !Nat.eqb_eq.
  intros [Hy Hyd] [Hm Hmd] [Hd Hdd].
  destruct y as [|y1 [|y2 [|y3 [|y4 [|]]]]]; try discriminate.
  destruct m as [|m1 [|m2 [|]]]; try discriminate.
  destruct d as [|d1 [|d2 [|]]]; try discriminate.
  cbn in Hyd, Hmd, Hdd. cbv -[is_digit andb].
  rewrite ?andb_true_r in *. rewrite !andb_true_iff in *. tauto.
Qed.

(** X16. Every date that can be picked has the shape YYYY-MM-DD. As long
    as the current year is at most 9999 (the largest year of [datetime]),
    a year of the year dropdown, a month of the month dropdown and a day
    of the day dropdown make a selected date of ten characters: four
    digits, a dash, two digits, a dash, two digits. *)
Theorem selected_date_shape (now_year : Z) (y m d : string) :
  (now_year <= 9999)%Z ->
  y ∈ year_options now_year -> m ∈ month_options -> d ∈ day_options ->
  iso_shape (selected_date y m d) = true.
Proof.
  intros Hnow Hy Hm Hd. apply selected_date_iso.
  - apply (proj1 (forallb_forall _ _) year_options_9999).
    apply list_elem_of_In, year_options_elem.
    apply year_options_elem in Hy as (i & Hi & ->). exists i. split; [lia|done].
  - by apply (proj1 (forallb_forall _ _) month_options_digits), list_elem_of_In.
  - by apply (proj1 (forallb_forall _ _) day_options_digits), list_elem_of_In.
Qed.

Lemma selected_date_shape_witness :
  iso_shape (selected_date "2024" "02" "31") = true.
Proof.
  apply (selected_date_shape 2026 "2024" "02" "31").
  - lia.
  - apply (bool_decide_unpack _). vm_compute. exact I.
  - apply (bool_decide_unpack _). vm_compute. exact I.
  - apply (bool_decide_unpack _). vm_compute. exact I.
Defined.
